(** * SYNAPSE demo: the authentication stub and the canvas registry

    A shallow embedding of [demo/src/login.py] and [demo/src/board.py],
    followed by the properties of the two components.

    Python values are modelled by the built-in data values the two modules
    can be handed (None, booleans, integers, strings, lists of values).
    Arguments of user classes with their own [__eq__] are treated apart, in
    [AnyArg], where an operation can raise. *)

From stdpp Require Import gmap strings list fin_maps.

Local Open Scope string_scope.
Local Open Scope list_scope.
Local Set Warnings "-register-all".

(** ** Python values *)

Inductive pyval : Type :=
  | PyNone
  | PyBool (b : bool)
  | PyInt (n : Z)
  | PyStr (s : string)
  | PyList (l : list pyval).

(** [v == "lit"] for a string literal: a [str] compares by contents, every
    other built-in value is unequal to a [str]. *)
Definition py_eq_str (v : pyval) (lit : string) : bool :=
  match v with
  | PyStr s => bool_decide (s = lit)
  | _ => false
  end.

(** ** login.py *)

Module AuthProvider.

Record t : Type := Build { is_authenticated : bool }.

(** [def __init__(self): self.is_authenticated = False] *)
Definition __init__ : t := {| is_authenticated := false |}.

(** [def login(self, username, password)]: the returned boolean and the
    instance after the call. *)
Definition login (username password : pyval) (self : t) : bool * t :=
  if py_eq_str username "admin" && py_eq_str password "synapse"
  then (true, {| is_authenticated := true |})
  else (false, self).

(** [def logout(self): self.is_authenticated = False] *)
Definition logout (self : t) : t := {| is_authenticated := false |}.

End AuthProvider.

(** [def validate_token(token): return token == "valid_token"] *)
Definition validate_token (token : pyval) : bool :=
  py_eq_str token "valid_token".

(** ** board.py *)

Module CanvasManager.

Record t : Type := Build { size : pyval; elements : list pyval }.

(** [def __init__(self, size)] *)
Definition __init__ (size : pyval) : t :=
  {| size := size; elements := [] |}.

(** [def add_element(self, element): self.elements.append(element)] *)
Definition add_element (element : pyval) (self : t) : t :=
  {| size := size self; elements := elements self ++ [element] |}.

(** [def clear(self): self.elements = []] *)
Definition clear (self : t) : t :=
  {| size := size self; elements := [] |}.

End CanvasManager.

(** [def get_board_config(): return {"theme": "gruvbox", "grid": True}]
    The dict display inserts its items from left to right into a new dict. *)
Definition get_board_config : gmap string pyval :=
  <["grid" := PyBool true]> (<["theme" := PyStr "gruvbox"]> ∅).

(** ** Instances in the object store

    A client holds any number of instances; a method call names its receiver
    by address.  [exec] runs one call: it gives the returned value and the
    store after the call, and [None] when the receiver is not a live instance
    of the method's class. *)

Inductive object : Type :=
  | AuthProviderObj (a : AuthProvider.t)
  | CanvasManagerObj (c : CanvasManager.t).

Inductive call : Type :=
  | NewAuthProvider
  | Login (self : nat) (username password : pyval)
  | Logout (self : nat)
  | ValidateToken (token : pyval)
  | NewCanvasManager (size : pyval)
  | AddElement (self : nat) (element : pyval)
  | Clear (self : nat)
  | GetBoardConfig.

Inductive retval : Type :=
  | RetNone
  | RetBool (b : bool)
  | RetRef (addr : nat)
  | RetDict (d : gmap string pyval).

Definition exec (c : call) (h : gmap nat object)
  : option (retval * gmap nat object) :=
  match c with
  | NewAuthProvider =>
      let r := fresh (dom h) in
      Some (RetRef r, <[r := AuthProviderObj AuthProvider.__init__]> h)
  | Login self username password =>
      match h !! self with
      | Some (AuthProviderObj a) =>
          let (b, a') := AuthProvider.login username password a in
          Some (RetBool b, <[self := AuthProviderObj a']> h)
      | _ => None
      end
  | Logout self =>
      match h !! self with
      | Some (AuthProviderObj a) =>
          Some (RetNone, <[self := AuthProviderObj (AuthProvider.logout a)]> h)
      | _ => None
      end
  | ValidateToken token => Some (RetBool (validate_token token), h)
  | NewCanvasManager size =>
      let r := fresh (dom h) in
      Some (RetRef r, <[r := CanvasManagerObj (CanvasManager.__init__ size)]> h)
  | AddElement self element =>
      match h !! self with
      | Some (CanvasManagerObj c) =>
          Some (RetNone,
                <[self := CanvasManagerObj (CanvasManager.add_element element c)]> h)
      | _ => None
      end
  | Clear self =>
      match h !! self with
      | Some (CanvasManagerObj c) =>
          Some (RetNone, <[self := CanvasManagerObj (CanvasManager.clear c)]> h)
      | _ => None
      end
  | GetBoardConfig => Some (RetDict get_board_config, h)
  end.

(** ** Call sequences on one instance *)

Inductive auth_event : Type :=
  | EvLogin (username password : pyval)
  | EvLogout.

Definition auth_step (a : AuthProvider.t) (e : auth_event) : AuthProvider.t :=
  match e with
  | EvLogin username password => snd (AuthProvider.login username password a)
  | EvLogout => AuthProvider.logout a
  end.

(** The instance after the calls of [tr], in order, on a fresh instance. *)
Definition auth_run (tr : list auth_event) : AuthProvider.t :=
  fold_left auth_step tr AuthProvider.__init__.

Inductive canvas_event : Type :=
  | EvAddElement (element : pyval)
  | EvClear.

Definition canvas_step (c : CanvasManager.t) (e : canvas_event) : CanvasManager.t :=
  match e with
  | EvAddElement element => CanvasManager.add_element element c
  | EvClear => CanvasManager.clear c
  end.

Definition canvas_run (tr : list canvas_event) (c : CanvasManager.t)
  : CanvasManager.t :=
  fold_left canvas_step tr c.

(** ** Call sequences from any instance state *)

Definition auth_run_from (a : AuthProvider.t) (tr : list auth_event)
  : AuthProvider.t :=
  fold_left auth_step tr a.

(** ** The elements list as an object of its own

    [self.elements] names a list object.  [append] changes that object in
    place; the assignments in [__init__] and [clear] bind the attribute to a
    newly built empty list.  [σ] maps the addresses of the live list objects
    to their contents; the element values themselves are never inspected by
    the code and stay plain values. *)

Module CanvasManagerRef.

Record t : Type := Build { size : pyval; elements : nat }.

(** [self.size = size; self.elements = []] *)
Definition __init__ (size : pyval) (σ : gmap nat (list pyval))
  : t * gmap nat (list pyval) :=
  let r := fresh (dom σ) in
  ({| size := size; elements := r |}, <[r := []]> σ).

(** [self.elements.append(element)] *)
Definition add_element (element : pyval) (self : t) (σ : gmap nat (list pyval))
  : gmap nat (list pyval) :=
  alter (λ l, l ++ [element]) (elements self) σ.

(** [self.elements = []] *)
Definition clear (self : t) (σ : gmap nat (list pyval))
  : t * gmap nat (list pyval) :=
  let r := fresh (dom σ) in
  ({| size := size self; elements := r |}, <[r := []]> σ).

(** The instance as a client reads it: its size and the contents of the
    list its attribute names. *)
Definition view (self : t) (σ : gmap nat (list pyval))
  : option CanvasManager.t :=
  CanvasManager.Build (size self) <$> σ !! elements self.

End CanvasManagerRef.

(** A call on an instance together with the store of list objects. *)
Definition canvas_ref_step
    (s : CanvasManagerRef.t * gmap nat (list pyval)) (e : canvas_event)
  : CanvasManagerRef.t * gmap nat (list pyval) :=
  match e with
  | EvAddElement element =>
      (fst s, CanvasManagerRef.add_element element (fst s) (snd s))
  | EvClear => CanvasManagerRef.clear (fst s) (snd s)
  end.

Definition canvas_ref_run (tr : list canvas_event)
    (s : CanvasManagerRef.t * gmap nat (list pyval))
  : CanvasManagerRef.t * gmap nat (list pyval) :=
  fold_left canvas_ref_step tr s.

(** ** Arguments of any class

    An argument need not be a built-in value.  On an instance of a user
    class, [arg == "lit"] runs the class's [__eq__] with the literal: it
    returns a value, returns [NotImplemented] (the comparison then falls back
    to identity and is [False]), or raises.  An operation either returns or
    propagates the exception; it comes with the instance after the call. *)

Inductive eq_verdict : Type :=
  | EqValue (v : pyval)
  | EqNotImplemented
  | EqRaise (exc : string).

Inductive pyarg : Type :=
  | Plain (v : pyval)
  | Custom (eq : string → eq_verdict).

Inductive outcome (A : Type) : Type :=
  | Returned (a : A)
  | Raised (exc : string).

Arguments Returned {A} a.
Arguments Raised {A} exc.

(** Truth value of a built-in value, as [if] and [and] test it. *)
Definition py_truthy (v : pyval) : bool :=
  match v with
  | PyNone => false
  | PyBool b => b
  | PyInt n => negb (n =? 0)%Z
  | PyStr EmptyString => false
  | PyStr (String _ _) => true
  | PyList [] => false
  | PyList (_ :: _) => true
  end.

(** [arg == "lit"] *)
Definition py_eq_lit (arg : pyarg) (lit : string) : outcome pyval :=
  match arg with
  | Plain v => Returned (PyBool (py_eq_str v lit))
  | Custom eq =>
      match eq lit with
      | EqValue v => Returned v
      | EqNotImplemented => Returned (PyBool false)
      | EqRaise exc => Raised exc
      end
  end.

Module AnyArg.

(** [if username == "admin" and password == "synapse":]: the second
    comparison is evaluated only when the first is true. *)
Definition login (username password : pyarg) (self : AuthProvider.t)
  : outcome bool * AuthProvider.t :=
  match py_eq_lit username "admin" with
  | Raised exc => (Raised exc, self)
  | Returned v1 =>
      if py_truthy v1 then
        match py_eq_lit password "synapse" with
        | Raised exc => (Raised exc, self)
        | Returned v2 =>
            if py_truthy v2
            then (Returned true, {| AuthProvider.is_authenticated := true |})
            else (Returned false, self)
        end
      else (Returned false, self)
  end.

Definition logout (self : AuthProvider.t) : outcome unit * AuthProvider.t :=
  (Returned tt, {| AuthProvider.is_authenticated := false |}).

(** [return token == "valid_token"]: the value of the comparison itself. *)
Definition validate_token (token : pyarg) : outcome pyval :=
  py_eq_lit token "valid_token".

Record canvas : Type := Canvas { size : pyarg; elements : list pyarg }.

Definition __init__ (size : pyarg) : outcome unit * canvas :=
  (Returned tt, {| size := size; elements := [] |}).

Definition add_element (element : pyarg) (self : canvas)
  : outcome unit * canvas :=
  (Returned tt, {| size := size self; elements := elements self ++ [element] |}).

Definition clear (self : canvas) : outcome unit * canvas :=
  (Returned tt, {| size := size self; elements := [] |}).

Definition get_board_config : outcome (gmap string pyval) :=
  Returned (<["grid" := PyBool true]> (<["theme" := PyStr "gruvbox"]> ∅)).


End AnyArg.

Example login_admin :
  AuthProvider.login (PyStr "admin") (PyStr "synapse") AuthProvider.__init__
  = (true, AuthProvider.Build true).
Proof. reflexivity. Qed.

Example login_other :
  AuthProvider.login (PyStr "admin") (PyInt 3) (AuthProvider.Build true)
  = (false, AuthProvider.Build true).
Proof. reflexivity. Qed.

(** ** Comparison with a string literal *)

Lemma py_eq_str_true (v : pyval) (lit : string) :
  py_eq_str v lit = true ↔ v = PyStr lit.
Proof.
  destruct v as [ | b | n | s | l]; simpl; try (split; [discriminate | congruence]).
  rewrite bool_decide_eq_true. split; congruence.
Qed.

Lemma py_eq_str_refl (lit : string) : py_eq_str (PyStr lit) lit = true.
Proof. by apply py_eq_str_true. Qed.

(** The guard of [login] holds for exactly one pair of arguments. *)
Lemma login_guard (username password : pyval) :
  py_eq_str username "admin" && py_eq_str password "synapse" = true
  ↔ (username, password) = (PyStr "admin", PyStr "synapse").
Proof.
  rewrite andb_true_iff, !py_eq_str_true. split.
  - intros [-> ->]. reflexivity.
  - intros [= -> ->]. done.
Qed.

Lemma login_guard_false (username password : pyval) :
  (username, password) ≠ (PyStr "admin", PyStr "synapse") →
  py_eq_str username "admin" && py_eq_str password "synapse" = false.
Proof.
  intros Hne. apply not_true_is_false. by rewrite login_guard.
Qed.

Lemma credentials_cases (username password : pyval) :
  (username, password) = (PyStr "admin", PyStr "synapse")
  ∨ (username, password) ≠ (PyStr "admin", PyStr "synapse").
Proof.
  destruct (py_eq_str username "admin" && py_eq_str password "synapse")
    eqn:Hguard.
  - left. by apply login_guard.
  - right. intros Heq. apply login_guard in Heq. congruence.
Qed.

Lemma login_failed (username password : pyval) (self : AuthProvider.t) :
  (username, password) ≠ (PyStr "admin", PyStr "synapse") →
  AuthProvider.login username password self = (false, self).
Proof.
  intros Hne. unfold AuthProvider.login. by rewrite login_guard_false.
Qed.

(** ** AuthProvider *)

(** C1. On every instance, whatever its state before the call,
    [login("admin", "synapse")] returns [True] and leaves
    [is_authenticated] set to [True]. *)
Theorem login_admin_synapse (self : AuthProvider.t) :
  let (result, self') :=
    AuthProvider.login (PyStr "admin") (PyStr "synapse") self in
  result = true ∧ AuthProvider.is_authenticated self' = true.
Proof. simpl. split; reflexivity. Qed.

(** C2, as stated, fails on an authenticated instance: a failed [login]
    returns [False] but does not reset the flag. *)
Lemma login_failed_when_authenticated_stays_authenticated :
  (PyStr "admin", PyStr "wrong") ≠ (PyStr "admin", PyStr "synapse")
  ∧ ¬ (fst (AuthProvider.login (PyStr "admin") (PyStr "wrong")
              (AuthProvider.Build true)) = false
       ∧ AuthProvider.is_authenticated
           (snd (AuthProvider.login (PyStr "admin") (PyStr "wrong")
                   (AuthProvider.Build true))) = false).
Proof.
  split; [discriminate | ]. simpl. intros [_ Hflag]. discriminate Hflag.
Qed.

(** C2, amended. For any pair other than [("admin", "synapse")], [login]
    returns [False] in every prior state; an unauthenticated instance is
    unauthenticated after the call, and an authenticated one stays
    authenticated. *)
Theorem login_other_pair_returns_false
    (self : AuthProvider.t) (username password : pyval) :
  (username, password) ≠ (PyStr "admin", PyStr "synapse") →
  fst (AuthProvider.login username password self) = false
  ∧ (AuthProvider.is_authenticated self = false →
     AuthProvider.is_authenticated
       (snd (AuthProvider.login username password self)) = false)
  ∧ (AuthProvider.is_authenticated self = true →
     AuthProvider.is_authenticated
       (snd (AuthProvider.login username password self)) = true).
Proof.
  intros Hne. rewrite (login_failed _ _ _ Hne). simpl. tauto.
Qed.

Lemma login_other_pair_returns_false_witness :
  (PyStr "admin", PyStr "wrong") ≠ (PyStr "admin", PyStr "synapse")
  ∧ fst (AuthProvider.login (PyStr "admin") (PyStr "wrong")
           (AuthProvider.Build true)) = false
  ∧ AuthProvider.is_authenticated
      (snd (AuthProvider.login (PyStr "admin") (PyStr "wrong")
              (AuthProvider.Build true))) = true.
Proof.
  assert (Hne : (PyStr "admin", PyStr "wrong")
                ≠ (PyStr "admin", PyStr "synapse")) by discriminate.
  split; [exact Hne | ].
  destruct (login_other_pair_returns_false (AuthProvider.Build true)
              (PyStr "admin") (PyStr "wrong") Hne) as (Hret & _ & Hauth).
  split; [exact Hret | apply Hauth; reflexivity].
Defined.

(** C3. For any pair other than [("admin", "synapse")], [login] returns
    [False] and leaves [is_authenticated] as it was before the call; a fresh
    instance starts with the flag [False] and still has it [False] after
    such a call. *)
Theorem login_other_pair_keeps_state
    (self : AuthProvider.t) (username password : pyval) :
  (username, password) ≠ (PyStr "admin", PyStr "synapse") →
  (fst (AuthProvider.login username password self) = false
   ∧ AuthProvider.is_authenticated
       (snd (AuthProvider.login username password self))
     = AuthProvider.is_authenticated self)
  ∧ AuthProvider.is_authenticated AuthProvider.__init__ = false
  ∧ AuthProvider.is_authenticated
      (snd (AuthProvider.login username password AuthProvider.__init__))
    = false.
Proof.
  intros Hne. rewrite !(login_failed _ _ _ Hne). simpl. done.
Qed.

Lemma login_other_pair_keeps_state_witness :
  (PyStr "Admin", PyStr "synapse") ≠ (PyStr "admin", PyStr "synapse")
  ∧ AuthProvider.is_authenticated
      (snd (AuthProvider.login (PyStr "Admin") (PyStr "synapse")
              (AuthProvider.Build true)))
    = AuthProvider.is_authenticated (AuthProvider.Build true).
Proof.
  assert (Hne : (PyStr "Admin", PyStr "synapse")
                ≠ (PyStr "admin", PyStr "synapse")) by discriminate.
  split; [exact Hne | ].
  apply (login_other_pair_keeps_state (AuthProvider.Build true)
           (PyStr "Admin") (PyStr "synapse") Hne).
Defined.

(** C4. In every prior state [logout] leaves [is_authenticated] set to
    [False]; in particular it does so right after a successful [login]. *)
Theorem logout_resets (self : AuthProvider.t) :
  AuthProvider.is_authenticated (AuthProvider.logout self) = false
  ∧ (let (result, self') :=
       AuthProvider.login (PyStr "admin") (PyStr "synapse") self in
     result = true
     ∧ AuthProvider.is_authenticated self' = true
     ∧ AuthProvider.is_authenticated (AuthProvider.logout self') = false).
Proof. simpl. done. Qed.

(** ** validate_token *)

(** C5. [validate_token(token)] is [True] exactly when [token] is the string
    ["valid_token"]; run in any two object stores it returns the same value,
    and it leaves the store as it found it. *)
Theorem validate_token_spec (token : pyval) :
  (validate_token token = true ↔ token = PyStr "valid_token")
  ∧ (∀ h1 h2 : gmap nat object,
       fst <$> exec (ValidateToken token) h1
       = fst <$> exec (ValidateToken token) h2)
  ∧ (∀ h : gmap nat object,
       exec (ValidateToken token) h = Some (RetBool (validate_token token), h)).
Proof.
  split; [apply py_eq_str_true | ]. split; reflexivity.
Qed.

Lemma validate_token_spec_witness :
  validate_token (PyStr "valid_token") = true
  ∧ validate_token (PyStr "valid_token ") = false
  ∧ validate_token PyNone = false.
Proof.
  split; [ | split].
  - apply (validate_token_spec (PyStr "valid_token")). reflexivity.
  - apply not_true_is_false. intros H.
    apply (validate_token_spec (PyStr "valid_token ")) in H. discriminate H.
  - apply not_true_is_false. intros H.
    apply (validate_token_spec PyNone) in H. discriminate H.
Defined.

(** ** CanvasManager *)

Lemma add_element_elements (element : pyval) (self : CanvasManager.t) :
  CanvasManager.elements (CanvasManager.add_element element self)
  = CanvasManager.elements self ++ [element].
Proof. reflexivity. Qed.

Lemma add_element_size (element : pyval) (self : CanvasManager.t) :
  CanvasManager.size (CanvasManager.add_element element self)
  = CanvasManager.size self.
Proof. reflexivity. Qed.

Lemma clear_size (self : CanvasManager.t) :
  CanvasManager.size (CanvasManager.clear self) = CanvasManager.size self.
Proof. reflexivity. Qed.

Lemma canvas_run_snoc (tr : list canvas_event) (e : canvas_event)
    (c : CanvasManager.t) :
  canvas_run (tr ++ [e]) c = canvas_step (canvas_run tr c) e.
Proof. unfold canvas_run. by rewrite fold_left_app. Qed.

Lemma canvas_step_size (c : CanvasManager.t) (e : canvas_event) :
  CanvasManager.size (canvas_step c e) = CanvasManager.size c.
Proof. destruct e; reflexivity. Qed.

Lemma canvas_run_size (tr : list canvas_event) (c : CanvasManager.t) :
  CanvasManager.size (canvas_run tr c) = CanvasManager.size c.
Proof.
  revert c. induction tr as [ | e tr IH]; intros c; [reflexivity | ].
  change (canvas_run (e :: tr) c) with (canvas_run tr (canvas_step c e)).
  by rewrite IH, canvas_step_size.
Qed.

(** Appending a whole list of elements, one [add_element] call each. *)
Lemma canvas_run_add_all (xs : list pyval) (c : CanvasManager.t) :
  CanvasManager.elements (canvas_run (EvAddElement <$> xs) c)
  = CanvasManager.elements c ++ xs.
Proof.
  revert c. induction xs as [ | x xs IH]; intros c; simpl.
  - by rewrite app_nil_r.
  - change (canvas_run (EvAddElement x :: (EvAddElement <$> xs)) c)
      with (canvas_run (EvAddElement <$> xs) (CanvasManager.add_element x c)).
    rewrite IH, add_element_elements, <- app_assoc. reflexivity.
Qed.

(** C6. A canvas built with any size starts with no elements; after
    [add_element(x)] and then [add_element(y)] its elements are [[x, y]]
    in that order; [clear()] after that leaves it with no elements. *)
Theorem canvas_add_add_clear (size x y : pyval) :
  let c0 := CanvasManager.__init__ size in
  let c2 := CanvasManager.add_element y (CanvasManager.add_element x c0) in
  CanvasManager.elements c0 = []
  ∧ CanvasManager.elements c2 = [x; y]
  ∧ CanvasManager.elements (CanvasManager.clear c2) = [].
Proof. simpl. done. Qed.

(** ** get_board_config *)

Lemma get_board_config_lookup (k : string) :
  get_board_config !! k
  = if decide (k = "grid") then Some (PyBool true)
    else if decide (k = "theme") then Some (PyStr "gruvbox")
    else None.
Proof.
  unfold get_board_config.
  repeat case_decide; simplify_map_eq; reflexivity.
Qed.

(** C7. [get_board_config()] returns the mapping with ["theme"] bound to
    ["gruvbox"] and ["grid"] bound to [True] and nothing else; it returns
    that same mapping in every object store and leaves the store alone. *)
Theorem get_board_config_fixed :
  get_board_config = {[ "theme" := PyStr "gruvbox"; "grid" := PyBool true ]}
  ∧ get_board_config !! "theme" = Some (PyStr "gruvbox")
  ∧ get_board_config !! "grid" = Some (PyBool true)
  ∧ dom get_board_config = ({[ "theme"; "grid" ]} : gset string)
  ∧ (∀ h : gmap nat object,
       exec GetBoardConfig h = Some (RetDict get_board_config, h)).
Proof.
  split.
  { apply map_eq. intros k. rewrite get_board_config_lookup.
    repeat case_decide; simplify_map_eq; reflexivity. }
  split; [by rewrite get_board_config_lookup | ].
  split; [by rewrite get_board_config_lookup | ].
  split; [ | reflexivity].
  unfold get_board_config. rewrite !dom_insert_L, dom_empty_L. set_solver.
Qed.

(** ** Which operations can raise *)










(** C10. [add_element] and [clear] keep [size]; after any sequence of the
    two on a canvas built with [size], the field still holds [size]. *)
Theorem canvas_size_constant :
  (∀ (self : CanvasManager.t) (element : pyval),
     CanvasManager.size (CanvasManager.add_element element self)
     = CanvasManager.size self)
  ∧ (∀ self : CanvasManager.t,
       CanvasManager.size (CanvasManager.clear self) = CanvasManager.size self)
  ∧ (∀ (size : pyval) (tr : list canvas_event),
       CanvasManager.size (canvas_run tr (CanvasManager.__init__ size)) = size).
Proof.
  split; [exact (λ self element, add_element_size element self) | ].
  split; [exact clear_size | ].
  intros size tr. by rewrite canvas_run_size.
Qed.

(** ** The authentication flag over call sequences *)

Lemma auth_run_snoc (tr : list auth_event) (e : auth_event) :
  auth_run (tr ++ [e]) = auth_step (auth_run tr) e.
Proof. unfold auth_run. by rewrite fold_left_app. Qed.

Lemma auth_step_login_failed (a : AuthProvider.t) (username password : pyval) :
  (username, password) ≠ (PyStr "admin", PyStr "synapse") →
  auth_step a (EvLogin username password) = a.
Proof. intros Hne. simpl. by rewrite login_failed. Qed.

(** A step that changes the flag is a successful login (the flag goes up) or
    a logout (the flag goes down). *)
Lemma auth_step_changes (a : AuthProvider.t) (e : auth_event) :
  AuthProvider.is_authenticated (auth_step a e)
  ≠ AuthProvider.is_authenticated a →
  (AuthProvider.is_authenticated a = false
   ∧ e = EvLogin (PyStr "admin") (PyStr "synapse"))
  ∨ (AuthProvider.is_authenticated a = true ∧ e = EvLogout).
Proof.
  destruct a as [[ | ]], e as [u p | ]; simpl; intros Hch;
    try (right; done); try done;
    destruct (credentials_cases u p) as [[= -> ->] | Hne];
    try (left; done); try done;
    rewrite login_failed in Hch by done; done.
Qed.

(** The flag is up after [tr] exactly when [tr] holds a successful login
    with no logout behind it. *)
Lemma auth_run_authenticated (tr : list auth_event) :
  AuthProvider.is_authenticated (auth_run tr) = true
  ↔ ∃ pre post : list auth_event,
      tr = pre ++ EvLogin (PyStr "admin") (PyStr "synapse") :: post
      ∧ EvLogout ∉ post.
Proof.
  induction tr as [ | e tr IH] using rev_ind.
  - split; [discriminate | ].
    intros (pre & post & Heq & _). by destruct pre.
  - rewrite auth_run_snoc. destruct e as [u p | ].
    + destruct (credentials_cases u p) as [[= -> ->] | Hne].
      * split; [intros _ | reflexivity].
        exists tr, []. split; [reflexivity | apply not_elem_of_nil].
      * rewrite (auth_step_login_failed _ _ _ Hne), IH. split.
        -- intros (pre & post & -> & Hno).
           exists pre, (post ++ [EvLogin u p]). split.
           ++ by rewrite <- app_assoc.
           ++ rewrite elem_of_app, list_elem_of_singleton. by intros [? | ?].
        -- intros (pre & post & Heq & Hno).
           destruct post as [ | x post _] using rev_ind.
           ++ apply app_inj_tail in Heq as [_ [= -> ->]]. done.
           ++ rewrite app_comm_cons, app_assoc in Heq.
              apply app_inj_tail in Heq as [-> _].
              exists pre, post. split; [reflexivity | ].
              intros Hin. apply Hno, elem_of_app. by left.
    + split; [discriminate | ].
      intros (pre & post & Heq & Hno).
      destruct post as [ | x post _] using rev_ind.
      * by apply app_inj_tail in Heq as [_ ?].
      * rewrite app_comm_cons, app_assoc in Heq.
        apply app_inj_tail in Heq as [_ <-].
        exfalso. apply Hno, elem_of_app. right. by apply list_elem_of_singleton.
Qed.

(** C9. The flag of a fresh instance is down.  It goes up only by a [login]
    with the two hardcoded strings, and that call does raise it; it goes down
    only by [logout], and [logout] always lowers it; no other call changes
    the instance; a failed [login] leaves an unauthenticated instance as it
    is.  After any sequence of calls on a
    fresh instance the flag is up exactly when the sequence holds a
    successful [login] with no [logout] after it. *)
Theorem auth_state_machine :
  AuthProvider.is_authenticated AuthProvider.__init__ = false
  ∧ (∀ (a : AuthProvider.t) (e : auth_event),
       AuthProvider.is_authenticated a = false →
       AuthProvider.is_authenticated (auth_step a e) = true →
       e = EvLogin (PyStr "admin") (PyStr "synapse"))
  ∧ (∀ a : AuthProvider.t,
       AuthProvider.is_authenticated
         (auth_step a (EvLogin (PyStr "admin") (PyStr "synapse"))) = true)
  ∧ (∀ (a : AuthProvider.t) (e : auth_event),
       AuthProvider.is_authenticated a = true →
       AuthProvider.is_authenticated (auth_step a e) = false →
       e = EvLogout)
  ∧ (∀ a : AuthProvider.t,
       AuthProvider.is_authenticated (auth_step a EvLogout) = false)
  ∧ (∀ (a : AuthProvider.t) (e : auth_event),
       auth_step a e ≠ a →
       (AuthProvider.is_authenticated a = false
        ∧ e = EvLogin (PyStr "admin") (PyStr "synapse"))
       ∨ (AuthProvider.is_authenticated a = true ∧ e = EvLogout))
  ∧ (∀ (a : AuthProvider.t) (username password : pyval),
       (username, password) ≠ (PyStr "admin", PyStr "synapse") →
       AuthProvider.is_authenticated a = false →
       auth_step a (EvLogin username password) = a
       ∧ AuthProvider.is_authenticated
           (auth_step a (EvLogin username password)) = false)
  ∧ (∀ tr : list auth_event,
       AuthProvider.is_authenticated (auth_run tr) = true
       ↔ ∃ pre post : list auth_event,
           tr = pre ++ EvLogin (PyStr "admin") (PyStr "synapse") :: post
           ∧ EvLogout ∉ post).
Proof.
  split; [reflexivity | ].
  split.
  { intros a e Hdown Hup.
    destruct (auth_step_changes a e) as [[_ He] | [Ha _]]; congruence. }
  split; [reflexivity | ].
  split.
  { intros a e Hup Hdown.
    destruct (auth_step_changes a e) as [[Ha _] | [_ He]]; congruence. }
  split; [reflexivity | ].
  split.
  { intros a e Hch. apply auth_step_changes. intros Hflag. apply Hch.
    destruct (auth_step a e) as [flag'], a as [flag].
    simpl in Hflag. by f_equal. }
  split.
  { intros a u p Hne Hdown. by rewrite auth_step_login_failed. }
  exact auth_run_authenticated.
Qed.

Lemma auth_state_machine_witness :
  AuthProvider.is_authenticated
    (auth_run [EvLogin (PyStr "admin") (PyStr "synapse");
               EvLogin (PyStr "guest") (PyStr "synapse")]) = true
  ∧ (PyStr "guest", PyNone) ≠ (PyStr "admin", PyStr "synapse")
  ∧ AuthProvider.is_authenticated AuthProvider.__init__ = false
  ∧ auth_step AuthProvider.__init__ (EvLogin (PyStr "guest") PyNone)
    = AuthProvider.__init__
  ∧ (∀ e : auth_event,
       AuthProvider.is_authenticated
         (auth_step (AuthProvider.Build true) e) = false →
       e = EvLogout).
Proof.
  destruct auth_state_machine
    as (Hfresh & _ & _ & Hdown & _ & _ & Hloop & Htrace).
  assert (Hne : (PyStr "guest", PyNone) ≠ (PyStr "admin", PyStr "synapse"))
    by discriminate.
  split; [ | split; [exact Hne | split; [exact Hfresh | split]]].
  - apply Htrace.
    exists [], [EvLogin (PyStr "guest") (PyStr "synapse")].
    split; [reflexivity | ].
    rewrite list_elem_of_singleton. discriminate.
  - apply (Hloop AuthProvider.__init__ (PyStr "guest") PyNone Hne Hfresh).
  - intros e. apply (Hdown (AuthProvider.Build true) e). reflexivity.
Defined.

(** ** Canvas contents over call sequences *)

Lemma canvas_run_app (tr1 tr2 : list canvas_event) (c : CanvasManager.t) :
  canvas_run (tr1 ++ tr2) c = canvas_run tr2 (canvas_run tr1 c).
Proof. unfold canvas_run. apply fold_left_app. Qed.

(** A call sequence has no [clear], or it splits at its last [clear]. *)
Lemma canvas_trace_shape (tr : list canvas_event) :
  (∃ xs : list pyval, tr = EvAddElement <$> xs)
  ∨ (∃ (pre : list canvas_event) (xs : list pyval),
       tr = pre ++ EvClear :: (EvAddElement <$> xs)).
Proof.
  induction tr as [ | e tr IH].
  - left. by exists [].
  - destruct IH as [[xs ->] | (pre & xs & ->)].
    + destruct e as [x | ].
      * left. by exists (x :: xs).
      * right. by exists [], xs.
    + right. by exists (e :: pre), xs.
Qed.

(** X1. After any sequence of [add_element] and [clear] calls the canvas
    holds, in call order, the elements added since the last [clear]; when
    the sequence has no [clear], the elements it had before come first. *)
Theorem canvas_elements_since_last_clear
    (tr : list canvas_event) (c : CanvasManager.t) :
  (∃ xs : list pyval,
     tr = EvAddElement <$> xs
     ∧ CanvasManager.elements (canvas_run tr c)
       = CanvasManager.elements c ++ xs)
  ∨ (∃ (pre : list canvas_event) (xs : list pyval),
       tr = pre ++ EvClear :: (EvAddElement <$> xs)
       ∧ CanvasManager.elements (canvas_run tr c) = xs).
Proof.
  destruct (canvas_trace_shape tr) as [[xs ->] | (pre & xs & ->)].
  - left. exists xs. split; [reflexivity | apply canvas_run_add_all].
  - right. exists pre, xs. split; [reflexivity | ].
    rewrite canvas_run_app.
    change (canvas_run (EvClear :: (EvAddElement <$> xs)) (canvas_run pre c))
      with (canvas_run (EvAddElement <$> xs)
              (CanvasManager.clear (canvas_run pre c))).
    by rewrite canvas_run_add_all.
Qed.

(** ** The authentication flag from any starting state *)

Lemma auth_run_from_snoc (a : AuthProvider.t) (tr : list auth_event)
    (e : auth_event) :
  auth_run_from a (tr ++ [e]) = auth_step (auth_run_from a tr) e.
Proof. unfold auth_run_from. by rewrite fold_left_app. Qed.

(** Splitting [tr ++ [e]] at an inner element [g]: [g] is the last element,
    or the part behind [g] ends in [e]. *)
Lemma snoc_split {A : Type} (tr pre post : list A) (e g : A) :
  tr ++ [e] = pre ++ g :: post →
  (post = [] ∧ tr = pre ∧ e = g)
  ∨ (∃ post' : list A, post = post' ++ [e] ∧ tr = pre ++ g :: post').
Proof.
  intros Heq. destruct post as [ | x post _] using rev_ind.
  - apply app_inj_tail in Heq as [-> ->]. by left.
  - rewrite app_comm_cons, app_assoc in Heq.
    apply app_inj_tail in Heq as [-> ->]. right. by exists post.
Qed.

(** X2. Started in any state, an instance is authenticated after a call
    sequence exactly when the sequence holds a successful [login] with no
    [logout] after it, or the instance was authenticated at the start and
    the sequence holds no [logout] at all. *)
Theorem auth_run_from_authenticated
    (a : AuthProvider.t) (tr : list auth_event) :
  AuthProvider.is_authenticated (auth_run_from a tr) = true
  ↔ (∃ pre post : list auth_event,
       tr = pre ++ EvLogin (PyStr "admin") (PyStr "synapse") :: post
       ∧ EvLogout ∉ post)
    ∨ (AuthProvider.is_authenticated a = true ∧ EvLogout ∉ tr).
Proof.
  induction tr as [ | e tr IH] using rev_ind.
  - simpl. split.
    + intros Ha. right. split; [exact Ha | apply not_elem_of_nil].
    + intros [(pre & post & Heq & _) | [Ha _]]; [by destruct pre | exact Ha].
  - rewrite auth_run_from_snoc. destruct e as [u p | ].
    + destruct (credentials_cases u p) as [[= -> ->] | Hne].
      * split; [intros _ | reflexivity].
        left. exists tr, []. split; [reflexivity | apply not_elem_of_nil].
      * rewrite (auth_step_login_failed _ _ _ Hne), IH. split.
        -- intros [(pre & post & -> & Hno) | [Ha Hno]].
           ++ left. exists pre, (post ++ [EvLogin u p]). split.
              ** by rewrite <- app_assoc.
              ** rewrite elem_of_app, list_elem_of_singleton.
                 by intros [? | ?].
           ++ right. split; [exact Ha | ].
              rewrite elem_of_app, list_elem_of_singleton. by intros [? | ?].
        -- intros [(pre & post & Heq & Hno) | [Ha Hno]].
           ++ apply snoc_split in Heq
                as [(_ & _ & [= -> ->]) | (post' & -> & ->)]; [done | ].
              left. exists pre, post'. split; [reflexivity | ].
              intros Hin. apply Hno, elem_of_app. by left.
           ++ right. split; [exact Ha | ].
              intros Hin. apply Hno, elem_of_app. by left.
    + split; [discriminate | ].
      intros [(pre & post & Heq & Hno) | [_ Hno]]; exfalso.
      * apply snoc_split in Heq as [(_ & _ & ?) | (post' & -> & _)]; [done | ].
        apply Hno, elem_of_app. right. by apply list_elem_of_singleton.
      * apply Hno, elem_of_app. right. by apply list_elem_of_singleton.
Qed.

Lemma auth_run_from_authenticated_witness :
  AuthProvider.is_authenticated
    (auth_run_from (AuthProvider.Build true)
       [EvLogin (PyStr "root") (PyStr "toor"); EvLogin PyNone PyNone]) = true
  ∧ AuthProvider.is_authenticated
      (auth_run_from (AuthProvider.Build true)
         [EvLogin (PyStr "admin") (PyStr "synapse"); EvLogout;
          EvLogin (PyStr "admin") (PyStr "Synapse")]) = false.
Proof.
  split.
  - apply auth_run_from_authenticated. right. split; [reflexivity | ].
    rewrite !elem_of_cons, elem_of_nil. intros [? | [? | []]]; discriminate.
  - apply not_true_is_false. intros Hup.
    apply auth_run_from_authenticated in Hup. revert Hup. simpl.
    intros [(pre & post & Heq & Hno) | [_ Hno]].
    + destruct pre as [ | e1 [ | e2 [ | e3 [ | e4 pre]]]]; simplify_eq/=.
      apply Hno. set_solver.
    + apply Hno. set_solver.
Defined.

(** ** The elements list as an object: refinement and aliasing *)

Lemma fresh_not_live {V : Type} (h : gmap nat V) (i : nat) (v : V) :
  h !! i = Some v → fresh (dom h) ≠ i.
Proof.
  intros Hi Heq. apply (is_fresh (dom h)). rewrite Heq.
  apply elem_of_dom. by exists v.
Qed.

Lemma fresh_list_not_live (σ : gmap nat (list pyval)) (r : nat) :
  is_Some (σ !! r) → fresh (dom σ) ≠ r.
Proof. intros [l Hr]. by apply (fresh_not_live σ r l). Qed.

Lemma canvas_ref_init_view (size : pyval) (σ : gmap nat (list pyval)) :
  CanvasManagerRef.view (fst (CanvasManagerRef.__init__ size σ))
    (snd (CanvasManagerRef.__init__ size σ))
  = Some (CanvasManager.__init__ size).
Proof. unfold CanvasManagerRef.view. simpl. by rewrite lookup_insert_eq. Qed.

Lemma canvas_ref_add_view (σ : gmap nat (list pyval))
    (self : CanvasManagerRef.t) (c : CanvasManager.t) (element : pyval) :
  CanvasManagerRef.view self σ = Some c →
  CanvasManagerRef.view self (CanvasManagerRef.add_element element self σ)
  = Some (CanvasManager.add_element element c).
Proof.
  unfold CanvasManagerRef.view, CanvasManagerRef.add_element. intros Hview.
  rewrite lookup_alter_eq.
  destruct (σ !! CanvasManagerRef.elements self) as [l | ]; [ | done].
  simpl in *. by simplify_eq.
Qed.

Lemma canvas_ref_clear_view (σ : gmap nat (list pyval))
    (self : CanvasManagerRef.t) (c : CanvasManager.t) :
  CanvasManagerRef.view self σ = Some c →
  CanvasManagerRef.view (fst (CanvasManagerRef.clear self σ))
    (snd (CanvasManagerRef.clear self σ))
  = Some (CanvasManager.clear c).
Proof.
  unfold CanvasManagerRef.view. intros Hview. simpl.
  rewrite lookup_insert_eq.
  destruct (σ !! CanvasManagerRef.elements self) as [l | ]; [ | done].
  simpl in *. by simplify_eq.
Qed.

Lemma canvas_ref_step_view (s : CanvasManagerRef.t * gmap nat (list pyval))
    (c : CanvasManager.t) (e : canvas_event) :
  CanvasManagerRef.view (fst s) (snd s) = Some c →
  CanvasManagerRef.view (fst (canvas_ref_step s e)) (snd (canvas_ref_step s e))
  = Some (canvas_step c e).
Proof.
  destruct s as [self σ]. intros Hview. destruct e as [x | ].
  - by apply canvas_ref_add_view.
  - by apply canvas_ref_clear_view.
Qed.

(** X5. The operations on the list object do, as read through the
    attribute, what the operations on the record do: a new instance reads as
    the record built by [__init__]; on an instance that reads as [c],
    [add_element] gives one that reads as [add_element] of [c], and [clear]
    one that reads as [clear] of [c]. *)
Theorem canvas_ref_refines
    (σ : gmap nat (list pyval)) (self : CanvasManagerRef.t)
    (c : CanvasManager.t) (size element : pyval) :
  CanvasManagerRef.view self σ = Some c →
  (let (self0, σ0) := CanvasManagerRef.__init__ size σ in
   CanvasManagerRef.view self0 σ0 = Some (CanvasManager.__init__ size))
  ∧ CanvasManagerRef.view self (CanvasManagerRef.add_element element self σ)
    = Some (CanvasManager.add_element element c)
  ∧ (let (self', σ') := CanvasManagerRef.clear self σ in
     CanvasManagerRef.view self' σ' = Some (CanvasManager.clear c)).
Proof.
  intros Hview. split; [apply canvas_ref_init_view | ].
  split; [by apply canvas_ref_add_view | by apply canvas_ref_clear_view].
Qed.

Lemma canvas_ref_refines_witness :
  CanvasManagerRef.view (CanvasManagerRef.Build (PyInt 2) 7)
    {[ 7 := [PyStr "a"] ]}
  = Some (CanvasManager.Build (PyInt 2) [PyStr "a"])
  ∧ CanvasManagerRef.view (CanvasManagerRef.Build (PyInt 2) 7)
      (CanvasManagerRef.add_element (PyStr "b")
         (CanvasManagerRef.Build (PyInt 2) 7) {[ 7 := [PyStr "a"] ]})
    = Some (CanvasManager.Build (PyInt 2) [PyStr "a"; PyStr "b"]).
Proof.
  assert (Hview :
    CanvasManagerRef.view (CanvasManagerRef.Build (PyInt 2) 7)
      {[ 7 := [PyStr "a"] ]}
    = Some (CanvasManager.Build (PyInt 2) [PyStr "a"])).
  { unfold CanvasManagerRef.view. simpl. by rewrite lookup_singleton_eq. }
  split; [exact Hview | ].
  apply (canvas_ref_refines _ _ _ PyNone (PyStr "b") Hview).
Defined.

(** X6. [add_element] changes the list object in place, [clear] does not:
    a client that kept the list named by [elements] sees an appended element
    in it, but after [clear] that list still has its old contents, the
    attribute names another, empty list, and later [add_element] calls no
    longer reach the kept one. *)
Theorem append_in_place_clear_rebinds
    (σ : gmap nat (list pyval)) (self : CanvasManagerRef.t)
    (l : list pyval) (x : pyval) :
  σ !! CanvasManagerRef.elements self = Some l →
  CanvasManagerRef.add_element x self σ !! CanvasManagerRef.elements self
  = Some (l ++ [x])
  ∧ (let (self', σ') := CanvasManagerRef.clear self σ in
     CanvasManagerRef.elements self' ≠ CanvasManagerRef.elements self
     ∧ σ' !! CanvasManagerRef.elements self = Some l
     ∧ σ' !! CanvasManagerRef.elements self' = Some []
     ∧ CanvasManagerRef.add_element x self' σ'
         !! CanvasManagerRef.elements self = Some l
     ∧ CanvasManagerRef.add_element x self' σ'
         !! CanvasManagerRef.elements self' = Some [x]).
Proof.
  intros Hl.
  pose proof (fresh_not_live σ _ _ Hl) as Hfresh.
  unfold CanvasManagerRef.add_element. simpl.
  rewrite !lookup_alter_eq, lookup_alter_ne by done.
  rewrite lookup_insert_eq, lookup_insert_ne, Hl by done.
  done.
Qed.

Lemma append_in_place_clear_rebinds_witness :
  ({[ 3 := [PyInt 1] ]} : gmap nat (list pyval)) !! 3 = Some [PyInt 1]
  ∧ CanvasManagerRef.add_element (PyInt 2) (CanvasManagerRef.Build PyNone 3)
      {[ 3 := [PyInt 1] ]} !! 3
    = Some [PyInt 1; PyInt 2]
  ∧ snd (CanvasManagerRef.clear (CanvasManagerRef.Build PyNone 3)
           {[ 3 := [PyInt 1] ]}) !! 3
    = Some [PyInt 1].
Proof.
  assert (Hl : ({[ 3 := [PyInt 1] ]} : gmap nat (list pyval)) !! 3
               = Some [PyInt 1]) by apply lookup_singleton_eq.
  split; [exact Hl | ].
  destruct (append_in_place_clear_rebinds _
              (CanvasManagerRef.Build PyNone 3) _ (PyInt 2) Hl)
    as (Hadd & _ & Hkept & _).
  split; [exact Hadd | exact Hkept].
Defined.

(** X7. Two instances never come to share a list: the list that [__init__]
    or [clear] binds is none of the lists already live, and [add_element]
    on an instance leaves every instance bound to another list as it was. *)
Theorem canvas_instances_separate
    (σ : gmap nat (list pyval)) (self other : CanvasManagerRef.t)
    (size x : pyval) :
  is_Some (σ !! CanvasManagerRef.elements other) →
  (CanvasManagerRef.elements self ≠ CanvasManagerRef.elements other →
   CanvasManagerRef.view other (CanvasManagerRef.add_element x self σ)
   = CanvasManagerRef.view other σ)
  ∧ (let (self', σ') := CanvasManagerRef.clear self σ in
     CanvasManagerRef.elements self' ≠ CanvasManagerRef.elements other
     ∧ CanvasManagerRef.view other σ' = CanvasManagerRef.view other σ)
  ∧ (let (new, σ') := CanvasManagerRef.__init__ size σ in
     CanvasManagerRef.elements new ≠ CanvasManagerRef.elements other
     ∧ CanvasManagerRef.view other σ' = CanvasManagerRef.view other σ
     ∧ CanvasManagerRef.view other (CanvasManagerRef.add_element x new σ')
       = CanvasManagerRef.view other σ).
Proof.
  intros Hlive.
  pose proof (fresh_list_not_live σ _ Hlive) as Hfresh.
  unfold CanvasManagerRef.view, CanvasManagerRef.add_element. simpl.
  split; [ | split; [ | split; [ | split]]];
    try done;
    try (intros ?);
    rewrite ?lookup_alter_ne, ?lookup_insert_ne by done;
    done.
Qed.

Lemma canvas_instances_separate_witness :
  is_Some (({[ 0 := [PyStr "a"] ]} : gmap nat (list pyval)) !! 0)
  ∧ CanvasManagerRef.view (CanvasManagerRef.Build (PyInt 1) 0)
      (CanvasManagerRef.add_element (PyStr "b")
         (fst (CanvasManagerRef.__init__ (PyInt 2) {[ 0 := [PyStr "a"] ]}))
         (snd (CanvasManagerRef.__init__ (PyInt 2) {[ 0 := [PyStr "a"] ]})))
    = CanvasManagerRef.view (CanvasManagerRef.Build (PyInt 1) 0)
        {[ 0 := [PyStr "a"] ]}.
Proof.
  assert (Hlive : is_Some (({[ 0 := [PyStr "a"] ]} : gmap nat (list pyval))
                             !! 0)).
  { exists [PyStr "a"]. apply lookup_singleton_eq. }
  split; [exact Hlive | ].
  destruct (canvas_instances_separate _
              (CanvasManagerRef.Build PyNone 0)
              (CanvasManagerRef.Build (PyInt 1) 0)
              (PyInt 2) (PyStr "b") Hlive)
    as (_ & _ & _ & _ & Hsame).
  exact Hsame.
Defined.

(** X8. Over any sequence of [add_element] and [clear] calls, what the
    attribute of the instance reads is what the record model computes: from
    an instance that reads as [c], the sequence leads to one that reads as
    [canvas_run] of the sequence on [c]. *)
Theorem canvas_ref_run_refines (tr : list canvas_event)
    (s : CanvasManagerRef.t * gmap nat (list pyval)) (c : CanvasManager.t) :
  CanvasManagerRef.view (fst s) (snd s) = Some c →
  CanvasManagerRef.view (fst (canvas_ref_run tr s)) (snd (canvas_ref_run tr s))
  = Some (canvas_run tr c).
Proof.
  revert s c. induction tr as [ | e tr IH]; intros s c Hview; [exact Hview | ].
  change (canvas_ref_run (e :: tr) s)
    with (canvas_ref_run tr (canvas_ref_step s e)).
  change (canvas_run (e :: tr) c) with (canvas_run tr (canvas_step c e)).
  apply IH. by apply canvas_ref_step_view.
Qed.

Lemma canvas_ref_run_refines_witness :
  CanvasManagerRef.view
    (fst (canvas_ref_run [EvAddElement (PyInt 1); EvClear; EvAddElement (PyInt 2)]
            (CanvasManagerRef.__init__ (PyStr "wide") ∅)))
    (snd (canvas_ref_run [EvAddElement (PyInt 1); EvClear; EvAddElement (PyInt 2)]
            (CanvasManagerRef.__init__ (PyStr "wide") ∅)))
  = Some (CanvasManager.Build (PyStr "wide") [PyInt 2]).
Proof.
  apply (canvas_ref_run_refines
           [EvAddElement (PyInt 1); EvClear; EvAddElement (PyInt 2)]
           (CanvasManagerRef.__init__ (PyStr "wide") ∅)
           (CanvasManager.__init__ (PyStr "wide"))).
  apply canvas_ref_init_view.
Defined.
